(** * The read-it-later library: ingestion backend and reader frontend

    The repository consists of a FastAPI backend ([main.py], developed in
    two stages: the MVP and the reader-view upgrade) and a Next.js frontend
    (the [Home] list page with its category filter and the [ReadPage]
    reader).  This development embeds both and states the properties of
    the pipeline fetch -> extract -> store -> list/filter -> sanitised
    read. *)

From Stdlib Require Import Ascii.
From stdpp Require Import base numbers list strings pretty sorting.

Local Open Scope string_scope.
Local Open Scope Z_scope.

(** ** Python control flow: values or a raised exception *)

Inductive result (E A : Type) : Type :=
  | Return (a : A)
  | Raise (e : E).
Arguments Return {E A} a.
Arguments Raise {E A} e.

(** A Python exception: its class and the message [str(e)] yields. *)
Record Exception := mkException { exc_class : string; exc_msg : string }.

Definition str (e : Exception) : string := exc_msg e.

(** [fastapi.HTTPException(status_code, detail)]. *)
Record HTTPException := mkHTTPException { http_status : Z; detail : string }.

(** ** The [requests] response object, as far as [main.py] uses it *)

Definition bytes := list Byte.byte.

Record Response := mkResponse {
  status_code : Z;
  reason : string;
  resp_url : string;
  content : bytes;            (* page.content: the body as received *)
  encoding : option string    (* declared by the headers, when they do *)
}.

Definition HTTPError (msg : string) : Exception := mkException "HTTPError" msg.

(** [Response.raise_for_status()]: client and server error statuses raise
    [HTTPError]; every other status passes. *)
Definition raise_for_status (page : Response) : result Exception unit :=
  if bool_decide (400 ≤ status_code page < 500) then
    Raise (HTTPError (pretty (status_code page) +:+ " Client Error: " +:+
                      reason page +:+ " for url: " +:+ resp_url page))
  else if bool_decide (500 ≤ status_code page < 600) then
    Raise (HTTPError (pretty (status_code page) +:+ " Server Error: " +:+
                      reason page +:+ " for url: " +:+ resp_url page))
  else Return ().

(** The libraries the backend calls.  Their code is not part of the
    repository; the backend is embedded over any implementation. *)
Class Requests := {
  (* requests.get(url, headers=...): a response, or the exception raised on
     a transport failure or a timeout *)
  requests_get : string → list (string * string) → result Exception Response;
  (* the codec behind [str(bytes, encoding, errors="replace")] *)
  decode : string → bytes → string;
  (* Response.apparent_encoding: the encoding guessed from the body *)
  apparent_encoding : bytes → string
}.

(** [Response.text]: the body decoded with the declared encoding, or with
    the guessed one when none is declared. *)
Definition Response_text `{Requests} (page : Response) : string :=
  decode (default (apparent_encoding (content page)) (encoding page))
         (content page).

(** ** The [links] table

    [CREATE TABLE links (id BIGINT PRIMARY KEY GENERATED ALWAYS AS IDENTITY,
    created_at TIMESTAMPTZ DEFAULT now() NOT NULL, url TEXT NOT NULL,
    title TEXT)], then [ALTER TABLE links ADD COLUMN content TEXT]. *)

Record Row := mkRow {
  row_id : Z;
  row_created_at : Z;
  row_url : string;
  row_title : option string;     (* TEXT, nullable *)
  row_content : option string    (* TEXT, nullable *)
}.

Record Db := mkDb {
  links : list Row;    (* the rows, in insertion order *)
  identity : Z;        (* next value of the identity column *)
  now : Z              (* the database clock *)
}.

(** [supabase.table('links').insert({...}).execute()]: the database assigns
    [id] and [created_at]; [response.data] is the list of inserted rows. *)
Definition insert (u : string) (title content : option string) (db : Db)
  : Db * list Row :=
  let row := mkRow (identity db) (now db) u title content in
  (mkDb (links db ++ [row]) (identity db + 1) (now db), [row]).

(** [.order('created_at', desc=True)]: insertion into a list kept newest
    first. *)
Fixpoint insert_desc (r : Row) (l : list Row) : list Row :=
  match l with
  | [] => [r]
  | x :: l' =>
      if bool_decide (row_created_at x ≤ row_created_at r)
      then r :: x :: l'
      else x :: insert_desc r l'
  end.

Definition order_created_at_desc (rows : list Row) : list Row :=
  foldr insert_desc [] rows.

(** [@app.get("/links")]:
    [supabase.table('links').select("*").order('created_at', desc=True)]. *)
Definition get_links (db : Db) : Db * list Row :=
  (db, order_created_at_desc (links db)).

(** The request body of [POST /links]. *)
Record LinkCreate := mkLinkCreate { url : string }.

Definition headers : list (string * string) :=
  [("User-Agent",
    "Mozilla/5.0 (Windows NT 10.0; Win64; x64) AppleWebKit/537.36 (KHTML, like Gecko) Chrome/91.0.4472.124 Safari/537.36")].

(** A handler body runs over the database and may raise. *)
Definition Handler (E A : Type) : Type := Db → Db * result E A.

Definition ret {E A} (a : A) : Handler E A := λ db, (db, Return a).

Definition raise {E A} (e : E) : Handler E A := λ db, (db, Raise e).

Definition bind {E A B} (m : Handler E A) (k : A → Handler E B) : Handler E B :=
  λ db, match m db with
        | (db', Return a) => k a db'
        | (db', Raise e) => (db', Raise e)
        end.

(** A library call that does not touch the database. *)
Definition call {E A} (r : result E A) : Handler E A := λ db, (db, r).

(** A database statement. *)
Definition execute {E A} (q : Db → Db * A) : Handler E A :=
  λ db, let '(db', a) := q db in (db', Return a).

(** [try: body except Exception as e: handler(e)]. *)
Definition try_except {E E' A} (body : Handler E A) (handler : E → Handler E' A)
  : Handler E' A :=
  λ db, match body db with
        | (db', Return a) => (db', Return a)
        | (db', Raise e) => handler e db'
        end.

Notation "'let!' x ':=' m 'in' k" := (bind m (λ x, k))
  (at level 10, x pattern, m at level 100, k at level 200).

(** [data[0]]. *)
Definition index0 {A} (data : list A) : result Exception A :=
  match data with
  | a :: _ => Return a
  | [] => Raise (mkException "IndexError" "list index out of range")
  end.

(** ** The MVP backend ([main.py] of the first stage) *)

Module MVP.

(** What [BeautifulSoup] builds: text nodes and tags with their children. *)
#[warnings="-register-all"]
Inductive PageElement :=
  | NavigableString (s : string)
  | Tag (name : string) (contents : list PageElement).

Class HtmlParser := {
  (* BeautifulSoup(markup, features): the top-level nodes of the document *)
  BeautifulSoup : bytes → string → list PageElement
}.

(** [tag.find(name)] over the descendants, in document order. *)
Fixpoint find_in (name : string) (e : PageElement) : option PageElement :=
  match e with
  | NavigableString _ => None
  | Tag n contents =>
      if bool_decide (n = name) then Some e
      else (fix first (l : list PageElement) : option PageElement :=
              match l with
              | [] => None
              | c :: l' =>
                  match find_in name c with
                  | Some t => Some t
                  | None => first l'
                  end
              end) contents
  end.

Fixpoint find (name : string) (soup : list PageElement) : option PageElement :=
  match soup with
  | [] => None
  | c :: soup' =>
      match find_in name c with
      | Some t => Some t
      | None => find name soup'
      end
  end.

(** [soup.title]: the first [<title>] tag, or [None]. *)
Definition soup_title (soup : list PageElement) : option PageElement :=
  find "title" soup.

(** [tag.string]: the text of a tag with exactly one child, looking through
    single-child tags; [None] for a tag with no child or several. *)
Fixpoint string_of (e : PageElement) : option string :=
  match e with
  | NavigableString s => Some s
  | Tag _ [c] => string_of c
  | Tag _ _ => None
  end.

Section main.
Context `{Requests, HtmlParser}.

(** [title = soup.title.string if soup.title else "No title found"];
    a tag object is truthy whatever its contents. *)
Definition title_of (soup : list PageElement) : option string :=
  match soup_title soup with
  | Some t => string_of t
  | None => Some "No title found"
  end.

(** [@app.post("/links")]. *)
Definition add_link (link : LinkCreate) : Handler HTTPException Row :=
  try_except
    (let! page := call (requests_get (url link) headers) in
     let! _ := call (raise_for_status page) in
     let soup := BeautifulSoup (content page) "html.parser" in
     let title := title_of soup in
     let! data := execute (insert (url link) title None) in
     call (index0 data))
    (λ e, raise (mkHTTPException 500 (str e))).
End main.

End MVP.

(** ** The reader-view backend ([main.py] after the second stage) *)

Module ReaderView.

(** [readability.Document(text)], through the two methods the handler
    calls; either may raise. *)
Class Readability := {
  Document_title : string → result Exception string;      (* doc.title() *)
  Document_summary : string → result Exception string
                                     (* doc.summary(html_partial=True) *)
}.

(** The requests the backend serves, and time passing in between. *)
Inductive Event :=
  | PostLinks (body : LinkCreate)
  | GetLinks
  | ClockAdvance (t : Z).

Section main.
Context `{Requests, Readability}.

(** [@app.post("/links")], with the parsing block replaced. *)
Definition add_link (link : LinkCreate) : Handler HTTPException Row :=
  try_except
    (let! page := call (requests_get (url link) headers) in
     let! _ := call (raise_for_status page) in
     let doc := Response_text page in
     let! title := call (Document_title doc) in
     let! content := call (Document_summary doc) in
     let! data := execute (insert (url link) (Some title) (Some content)) in
     call (index0 data))
    (λ e, raise (mkHTTPException 500 (str e))).

Definition serve (db : Db) (ev : Event) : Db :=
  match ev with
  | PostLinks body => fst (add_link body db)
  | GetLinks => fst (get_links db)
  | ClockAdvance t => mkDb (links db) (identity db) t
  end.

Definition serve_all (db : Db) (evs : list Event) : Db := foldl serve db evs.
End main.

End ReaderView.

(** ** The categorising stage *)

Module Categorizer.

(** Modelled from the spec: the Categorizer stage of the backend and the
    classification backend it calls are not among the sources (only the
    frontend's [CATEGORIES] list and the optional [category] field are).
    The closed set of category labels. *)
Definition CATEGORY_SET : list string :=
  ["Technology"; "History"; "Health & Wellness"; "Science";
   "Business & Finance"; "Arts & Culture"; "Productivity"; "Other"].

(** Modelled from the spec: what one attempt against the classification
    backend, [classify(text) -> label], may come back with: a label (any
    string), or a failure (unreachable, timed out). *)
Inductive BackendOutcome :=
  | Label (label : string)
  | Unreachable
  | TimedOut.

(** Modelled from the spec: the validation of the Categorizer: a label of
    the closed set is kept; a label outside it, an unreachable backend and
    a timeout resolve to [Other]. *)
Definition resolve (o : BackendOutcome) : string :=
  match o with
  | Label label => if bool_decide (label ∈ CATEGORY_SET) then label else "Other"
  | Unreachable | TimedOut => "Other"
  end.

(** Modelled from the spec: [classify(title, content) -> Category], one
    attempt against the backend, which is taken over the title and the
    content. *)
Definition classify (backend : string → string → BackendOutcome)
    (title content : string) : string :=
  resolve (backend title content).

End Categorizer.

(** ** The list page ([page.tsx], [Home]) *)

Module Home.

Definition CATEGORIES : list string :=
  ["All"; "Technology"; "History"; "Health & Wellness"; "Science";
   "Business & Finance"; "Arts & Culture"; "Productivity"; "Other"].

Record Link := mkLink {
  id : Z;
  url : string;
  title : string;
  created_at : string;
  category : option string    (* category?: string *)
}.

(** [filteredLinks]: [link.category === activeFilter] holds when the field
    is present and is that string. *)
Definition filteredLinks (links : list Link) (activeFilter : string) : list Link :=
  if bool_decide (activeFilter = "All") then links
  else filter (λ link, category link = Some activeFilter) links.

(** The component's state: [links], [newLinkUrl], [isLoading],
    [activeFilter]. *)
Record State := mkState {
  links : list Link;
  newLinkUrl : string;
  isLoading : bool;
  activeFilter : string
}.

Definition initial : State := mkState [] EmptyString false "All".

Definition setLinks (l : list Link) (st : State) : State :=
  mkState l (newLinkUrl st) (isLoading st) (activeFilter st).

Definition setNewLinkUrl (u : string) (st : State) : State :=
  mkState (links st) u (isLoading st) (activeFilter st).

Definition setIsLoading (b : bool) (st : State) : State :=
  mkState (links st) (newLinkUrl st) b (activeFilter st).

Definition setActiveFilter (f : string) (st : State) : State :=
  mkState (links st) (newLinkUrl st) (isLoading st) f.

(** The notifications raised through [toast]. *)
Inductive Toast :=
  | ToastWarning (message : string)
  | ToastLoading (message : string)
  | ToastSuccess (message : string)
  | ToastError (message : string).

(** How [axios.get(`${API_URL}/links`)] settles. *)
Inductive GetResult :=
  | GetResolved (data : list Link)
  | GetRejected.

(** [fetchLinks], run once when the component mounts. *)
Definition fetchLinks (response : GetResult) (st : State) : State * list Toast :=
  match response with
  | GetResolved data => (setLinks data st, [])
  | GetRejected =>
      (st, [ToastError "Failed to load links. Is the backend running?"])
  end.

(** How [axios.post(`${API_URL}/links`, { url })] settles: the created link,
    or a rejection, whose [error.response?.data?.detail] may be missing. *)
Inductive PostResult :=
  | PostResolved (data : Link)
  | PostRejected (detail : option string).

(** A request under way: the URL it posted and the [links] the handler
    closed over when it was called. *)
Record Pending := mkPending {
  posted_url : string;
  captured_links : list Link
}.

(** [handleSubmit] up to the request: an empty field only warns; otherwise
    the form is disabled, the request leaves and [toast.promise] shows its
    loading notice. *)
Definition handleSubmit (st : State) : State * list Toast * option Pending :=
  if bool_decide (newLinkUrl st = EmptyString) then
    (st, [ToastWarning "Please enter a URL."], None)
  else
    (setIsLoading true st,
     [ToastLoading "Saving and categorizing link..."],
     Some (mkPending (newLinkUrl st) (links st))).

Definition quote : string := String "034"%char EmptyString.

(** [x || "An error occurred."] on a string that may be missing. *)
Definition detail_or_default (detail : option string) : string :=
  match detail with
  | Some d => if bool_decide (d = EmptyString) then "An error occurred." else d
  | None => "An error occurred."
  end.

(** [handleSubmit] once the request settles: the promise body, then the
    [success] or [error] callback of [toast.promise]. *)
Definition settle (p : Pending) (response : PostResult) (st : State)
  : State * list Toast :=
  match response with
  | PostResolved data =>
      let st := setLinks (data :: captured_links p) st in
      let st := setNewLinkUrl EmptyString st in
      (setIsLoading false st,
       [ToastSuccess ("Link " +:+ quote +:+ title data +:+ quote +:+
                      " added successfully!")])
  | PostRejected detail =>
      (setIsLoading false st,
       [ToastError ("Error: " +:+ detail_or_default detail)])
  end.

(** A submission that settles before anything else happens. *)
Definition submit (axios_post : string → PostResult) (st : State)
  : State * list Toast :=
  match handleSubmit st with
  | (st1, toasts, Some p) =>
      let '(st2, toasts') := settle p (axios_post (posted_url p)) st1 in
      (st2, (toasts ++ toasts')%list)
  | (st1, toasts, None) => (st1, toasts)
  end.

(** The filter buttons: [CATEGORIES.map], the active one with the
    [default] variant; a click sets the filter to the button's category. *)
Record FilterButton := mkFilterButton {
  button_category : string;
  variant : string
}.

Definition buttons (st : State) : list FilterButton :=
  (λ category,
     mkFilterButton category
       (if bool_decide (activeFilter st = category) then "default" else "outline"))
  <$> CATEGORIES.

Definition onClick (b : FilterButton) (st : State) : State :=
  setActiveFilter (button_category b) st.

(** The cards of the list, or the notice shown in their place. *)
Record Card := mkCard {
  href : string;
  heading : string;
  badge : option string;
  added_on : string;
  shown_url : string
}.

Inductive Listing :=
  | Cards (cards : list Card)
  | Notice (message : string).

(** [Date.prototype.toLocaleString] over the parsed [created_at]. *)
Class DateFormat := { toLocaleString : string → string }.

Section view.
Context `{DateFormat}.

(** One card; [link.category && <Badge>] shows a badge for a category that
    is present and not the empty string. *)
Definition card (link : Link) : Card :=
  mkCard ("/read/" +:+ pretty (id link))
         (title link)
         (match category link with
          | Some c => if bool_decide (c = EmptyString) then None else Some c
          | None => None
          end)
         ("Added on: " +:+ toLocaleString (created_at link))
         (url link).

Definition listing (st : State) : Listing :=
  let filteredLinks := filteredLinks (links st) (activeFilter st) in
  if bool_decide (0 < length filteredLinks)%nat then Cards (card <$> filteredLinks)
  else Notice ("No links found for the category " +:+ quote +:+
               activeFilter st +:+ quote +:+ ".").

End view.

End Home.

(** ** The reader page ([page.tsx], [ReadPage]) *)

Module ReadPage.

(** [DOMPurify.sanitize]; the library is not part of the repository. *)
Class DOMPurify := { sanitize : string → string }.

Record Link := mkLink {
  id : Z;
  url : string;
  title : string;
  content : string;
  created_at : string
}.

(** The component's state: [link], [isLoading], [error]. *)
Record State := mkState {
  link : option Link;
  isLoading : bool;
  error : option string
}.

Definition initial : State := mkState None true None.

Definition setLink (l : Link) (st : State) : State :=
  mkState (Some l) (isLoading st) (error st).

Definition setIsLoading (b : bool) (st : State) : State :=
  mkState (link st) b (error st).

Definition setError (e : string) (st : State) : State :=
  mkState (link st) (isLoading st) (Some e).

(** How [axios.get] settles. *)
Inductive AxiosResult :=
  | Resolved (data : Link)
  | Rejected.

(** [fetchLink]: try / catch / finally around the request. *)
Definition fetchLink (response : AxiosResult) (st : State) : State :=
  let st := setIsLoading true st in
  let st :=
    match response with
    | Resolved data => setLink data st
    | Rejected => setError "Failed to load the article. Please try again later." st
    end in
  setIsLoading false st.

(** What the component returns: one of the three notices, or the article
    card, whose body is the [__html] given to [dangerouslySetInnerHTML]. *)
Inductive View :=
  | LoadingView
  | ErrorView (message : string)
  | NotFoundView
  | ArticleView (heading : string) (href : string) (__html : string).

(** A string or null used as a condition. *)
Definition truthy (s : option string) : bool :=
  match s with
  | Some s => negb (bool_decide (s = EmptyString))
  | None => false
  end.

Section render.
Context `{DOMPurify}.

Definition render (st : State) : View :=
  if isLoading st then LoadingView
  else if truthy (error st) then ErrorView (default EmptyString (error st))
  else match link st with
       | None => NotFoundView
       | Some link =>
           let sanitizedContent := sanitize (content link) in
           ArticleView (title link) (url link) sanitizedContent
       end.

End render.

Definition API_URL : string := "http://localhost:8000".

(** The effect on [id]: without an id nothing is requested. *)
Definition useEffect (axios_get : string → AxiosResult) (id : option string)
    (st : State) : State :=
  if truthy id then
    fetchLink (axios_get (API_URL +:+ "/links/" +:+ default EmptyString id)) st
  else st.

End ReadPage.

(** ** Fetch failure, as the handlers meet it *)

(** The fetch stage fails with cause [e]: [requests.get] raised [e] (a
    transport failure or a timeout), or it returned a page with a client or
    server error status and [e] is the [HTTPError] that
    [raise_for_status] raises for it. *)
Inductive fetch_fails `{Requests} (u : string) : Exception → Prop :=
  | transport_failure e :
      requests_get u headers = Raise e → fetch_fails u e
  | error_status page e :
      requests_get u headers = Return page →
      400 ≤ status_code page < 600 →
      raise_for_status page = Raise e →
      fetch_fails u e.

(** ** Vocabulary of the statements *)

(** The order of the listing: [a] may come before [b]. *)
Definition newer_first (a b : Row) : Prop := row_created_at b ≤ row_created_at a.

(** The row the reader-view handler inserts for a link, given the title and
    the fragment it extracted: the database supplies [id] and
    [created_at]. *)
Definition stored (link : LinkCreate) (title content : string) (db : Db) : Row :=
  mkRow (identity db) (now db) (url link) (Some title) (Some content).

(** The identity column has not handed out an id twice, and every id it
    handed out is below its next value. *)
Definition ids_fresh (db : Db) : Prop :=
  Forall (λ r, row_id r < identity db) (links db) ∧
  NoDup (row_id <$> links db).

(** What the browser gets back from [POST /links]: the created row as JSON,
    or, for an [HTTPException], an error response whose body carries the
    [detail]. *)
Definition post_response (json : Row → Home.Link)
    (r : result HTTPException Row) : Home.PostResult :=
  match r with
  | Return row => Home.PostResolved (json row)
  | Raise err => Home.PostRejected (Some (detail err))
  end.

(** ** Sample pages and library instances *)

Module Fixtures.

Definition latin1 (b : bytes) : string :=
  String.string_of_list_ascii (List.map Ascii.ascii_of_byte b).

Definition bytes_of (s : string) : bytes :=
  List.map Ascii.byte_of_ascii (String.list_ascii_of_string s).

(** A network on which every request settles the same way. *)
Definition serving (r : result Exception Response) : Requests :=
  {| requests_get := λ _ _, r;
     decode := λ _, latin1;
     apparent_encoding := λ _, "ISO-8859-1" |}.

Definition not_found : Response :=
  mkResponse 404 "Not Found" "https://example.com/missing" [] None.

Definition read_timeout : Exception :=
  mkException "ReadTimeout" "HTTPSConnectionPool(host='example.com', port=443): Read timed out.".

Definition untitled_html : string :=
  "<html><head><title></title></head><body><p>hello</p></body></html>".

Definition untitled_page : Response :=
  mkResponse 200 "OK" "https://example.com/" (bytes_of untitled_html) None.

(** The tree of [untitled_html]: the title tag is there and has no child. *)
Definition untitled_soup : list MVP.PageElement :=
  [MVP.Tag "html"
     [MVP.Tag "head" [MVP.Tag "title" []];
      MVP.Tag "body" [MVP.Tag "p" [MVP.NavigableString "hello"]]]].

(** A parser that knows the tree of one document. *)
Definition parsed_as (html : string) (soup : list MVP.PageElement)
  : MVP.HtmlParser :=
  {| MVP.BeautifulSoup := λ markup _,
       if bool_decide (latin1 markup = html) then soup else [] |}.

Definition article_html : string :=
  "<html><head><title>Post</title></head><body><nav>menu</nav><article><p>Hello</p><img src=x onerror='alert(1)'></article></body></html>".

Definition article_page : Response :=
  mkResponse 200 "OK" "https://example.com/post" (bytes_of article_html)
             (Some "utf-8").

Definition article_fragment : string :=
  "<div><p>Hello</p><img src=x onerror='alert(1)'></div>".

(** An extractor that knows the sample article and gives up on any other
    text. *)
Definition extractor : ReaderView.Readability :=
  {| ReaderView.Document_title := λ text,
       if bool_decide (text = article_html) then Return "Post"
       else Raise (mkException "Unparseable" "Document is empty");
     ReaderView.Document_summary := λ text,
       if bool_decide (text = article_html) then Return article_fragment
       else Raise (mkException "Unparseable" "Document is empty") |}.

(** A sanitizer that leaves no markup at all: every [<] is escaped. *)
Fixpoint escape (s : string) : string :=
  match s with
  | EmptyString => EmptyString
  | String c s' =>
      if bool_decide (c = "<"%char) then "&lt;" +:+ escape s'
      else String c (escape s')
  end.

Definition escaping : ReadPage.DOMPurify := {| ReadPage.sanitize := escape |}.

Definition empty_db : Db := mkDb [] 1 1700000000.

Definition sample_links : list Home.Link :=
  [Home.mkLink 3 "https://c.example" "C" "2024-03-01" (Some "Science");
   Home.mkLink 2 "https://b.example" "B" "2024-02-01" None;
   Home.mkLink 1 "https://a.example" "A" "2024-01-01" (Some "Science")].

(** A table holding one older row. *)
Definition one_row_db : Db :=
  mkDb [mkRow 1 1600000000 "https://old.example" (Some "Old") (Some "<p>old</p>")]
       2 1700000000.

(** The list page with a URL typed in and the Science filter active. *)
Definition typed_in : Home.State :=
  Home.mkState sample_links "https://example.com/post" false "Science".

Definition created : Home.Link :=
  Home.mkLink 4 "https://example.com/post" "Post" "2024-04-01" (Some "Science").

Definition plain_dates : Home.DateFormat := {| Home.toLocaleString := λ s, s |}.

(** A page without a title tag, and its tree. *)
Definition bare_html : string := "<html><body>hello</body></html>".

Definition bare_page : Response :=
  mkResponse 200 "OK" "https://example.com/bare" (bytes_of bare_html) None.

Definition bare_soup : list MVP.PageElement :=
  [MVP.Tag "html" [MVP.Tag "body" [MVP.NavigableString "hello"]]].

End Fixtures.

(** * Properties *)

(** ** The category filter of the list page *)

Lemma category_labels_not_All label :
  label ∈ tail Home.CATEGORIES → label ≠ "All".
Proof.
  unfold Home.CATEGORIES; simpl. intros Hin ->.
  repeat (apply elem_of_cons in Hin as [Heq | Hin]; [discriminate Heq |]).
  by apply elem_of_nil in Hin.
Qed.

Lemma filteredLinks_label links label :
  label ≠ "All" →
  Home.filteredLinks links label
  = filter (λ link, Home.category link = Some label) links.
Proof.
  intros Hne. unfold Home.filteredLinks.
  by rewrite bool_decide_eq_false_2.
Qed.

Lemma filter_greatest_sublist {A} (P : A → Prop) `{∀ x, Decision (P x)}
    (l s : list A) :
  s `sublist_of` l → Forall P s → s `sublist_of` filter P l.
Proof.
  intros Hsub. induction Hsub as [| x s l Hsub IH | x s l Hsub IH]; intros HP.
  - constructor.
  - apply Forall_cons in HP as [Hx HP].
    rewrite filter_cons_True by done. constructor. by apply IH.
  - rewrite filter_cons. destruct (decide (P x)); [constructor |]; by apply IH.
Qed.

(** C9.  Filtering the list by a category label (any filter other than
    "All", so each of the eight labels) returns exactly the subsequence of
    the records whose category is that label, in the order of the
    unfiltered list: the result is a subsequence of the list, all its
    records carry the label, and every subsequence of the list whose
    records all carry the label is a subsequence of the result. *)
Theorem filteredLinks_exact_subsequence (links : list Home.Link) (label : string) :
  label ≠ "All" →
  Home.filteredLinks links label `sublist_of` links ∧
  Forall (λ l, Home.category l = Some label) (Home.filteredLinks links label) ∧
  (∀ l, l ∈ Home.filteredLinks links label ↔
        l ∈ links ∧ Home.category l = Some label) ∧
  (∀ s, s `sublist_of` links →
        Forall (λ l, Home.category l = Some label) s →
        s `sublist_of` Home.filteredLinks links label).
Proof.
  intros Hne. rewrite filteredLinks_label by done.
  split_and!.
  - apply sublist_filter.
  - apply Forall_forall. intros l Hl. by apply list_elem_of_filter in Hl as [? _].
  - intros l. rewrite list_elem_of_filter. tauto.
  - intros s. apply filter_greatest_sublist.
Qed.

Lemma filteredLinks_exact_subsequence_witness :
  "Science" ≠ "All" ∧
  Home.filteredLinks Fixtures.sample_links "Science" `sublist_of` Fixtures.sample_links.
Proof.
  split; [discriminate |].
  apply (filteredLinks_exact_subsequence Fixtures.sample_links "Science").
  discriminate.
Defined.

(** C10.  A record whose [category] field is absent is left out of the list
    filtered by each of the eight category labels; a filter that shows it
    can only be "All", and under "All" the list is returned unchanged. *)
Theorem uncategorised_only_under_All (links : list Home.Link) (l : Home.Link) :
  Home.category l = None →
  (∀ label, label ∈ tail Home.CATEGORIES → l ∉ Home.filteredLinks links label) ∧
  (∀ activeFilter, l ∈ Home.filteredLinks links activeFilter → activeFilter = "All") ∧
  Home.filteredLinks links "All" = links.
Proof.
  intros Hnone.
  assert (Hout : ∀ f, f ≠ "All" → l ∉ Home.filteredLinks links f).
  { intros f Hf. rewrite filteredLinks_label by done.
    rewrite list_elem_of_filter. intros [Hcat _]. congruence. }
  split_and!.
  - intros label Hlabel. apply Hout. by apply category_labels_not_All.
  - intros f Hin. destruct (decide (f = "All")) as [| Hf]; [done |].
    by destruct (Hout f Hf).
  - reflexivity.
Qed.

Lemma uncategorised_only_under_All_witness :
  Forall (λ label,
            Home.mkLink 2 "https://b.example" "B" "2024-02-01" None
            ∉ Home.filteredLinks Fixtures.sample_links label)
         (tail Home.CATEGORIES) ∧
  Home.filteredLinks Fixtures.sample_links "All" = Fixtures.sample_links.
Proof.
  pose proof (uncategorised_only_under_All Fixtures.sample_links
                (Home.mkLink 2 "https://b.example" "B" "2024-02-01" None)
                eq_refl) as (Hout & _ & Hall).
  split; [| exact Hall].
  apply Forall_forall. exact Hout.
Defined.

(** ** The listing endpoint *)

Lemma insert_desc_Permutation r l : insert_desc r l ≡ₚ r :: l.
Proof.
  induction l as [| x l IH]; simpl; [done |].
  case_bool_decide; [done |].
  rewrite IH. apply Permutation_swap.
Qed.

Lemma insert_desc_Forall (P : Row → Prop) r l :
  P r → Forall P l → Forall P (insert_desc r l).
Proof.
  intros Hr Hl. rewrite insert_desc_Permutation. by constructor.
Qed.

Lemma insert_desc_sorted r l :
  StronglySorted newer_first l → StronglySorted newer_first (insert_desc r l).
Proof.
  induction 1 as [| x l Hsorted IH Hx]; simpl.
  - repeat constructor.
  - case_bool_decide as Hle.
    + constructor; [by constructor |].
      constructor; [done |].
      eapply Forall_impl; [exact Hx |].
      unfold newer_first. intros; lia.
    + constructor; [done |].
      apply insert_desc_Forall; [| done].
      unfold newer_first. lia.
Qed.

Lemma order_created_at_desc_Permutation rows :
  order_created_at_desc rows ≡ₚ rows.
Proof.
  induction rows as [| r rows IH]; simpl; [done |].
  by rewrite insert_desc_Permutation, IH.
Qed.

Lemma order_created_at_desc_sorted rows :
  StronglySorted newer_first (order_created_at_desc rows).
Proof.
  induction rows as [| r rows IH]; simpl.
  - constructor.
  - by apply insert_desc_sorted.
Qed.

(** C8.  Whatever the table holds, the listing endpoint returns all its
    rows (each exactly as often as it is stored) ordered by [created_at]
    descending: every row comes before all rows that are not newer.  The
    table itself is left as it was. *)
Theorem get_links_newest_first (db : Db) :
  fst (get_links db) = db ∧
  snd (get_links db) ≡ₚ links db ∧
  StronglySorted (λ a b, row_created_at b ≤ row_created_at a) (snd (get_links db)) ∧
  (∀ i j a b, (i < j)%nat →
     snd (get_links db) !! i = Some a → snd (get_links db) !! j = Some b →
     row_created_at b ≤ row_created_at a).
Proof.
  split_and!; simpl.
  - done.
  - apply order_created_at_desc_Permutation.
  - apply order_created_at_desc_sorted.
  - intros i j a b Hij Ha Hb.
    pose proof (order_created_at_desc_sorted (links db)) as Hs.
    revert i j a b Hij Ha Hb.
    induction Hs as [| x l Hs IH Hx]; intros i j a b Hij Ha Hb; [done |].
    destruct j as [| j]; [lia |]. simpl in Hb.
    destruct i as [| i]; simpl in Ha.
    + injection Ha as <-.
      rewrite Forall_forall in Hx. apply Hx.
      by eapply list_elem_of_lookup_2.
    + eapply (IH i j); [lia | done | done].
Qed.

(** ** Ingestion: the fetch stage *)

Lemma raise_for_status_error page :
  400 ≤ status_code page < 600 → ∃ e, raise_for_status page = Raise e.
Proof.
  intros Hst. unfold raise_for_status.
  repeat case_bool_decide; eauto. lia.
Qed.

Lemma raise_for_status_pass page :
  raise_for_status page = Return () ↔ ¬ 400 ≤ status_code page < 600.
Proof.
  unfold raise_for_status.
  repeat case_bool_decide; split; (done || lia || intros; exfalso; lia).
Qed.

(** C5.  When the fetch stage fails with cause [e] (the transport raised
    [e], or the page came back with a client or server error status, for
    which [raise_for_status] raises [e]), the ingestion handler, in the MVP
    and after the reader-view upgrade alike, leaves the database exactly as
    it was and its outcome is one error, the [HTTPException] whose detail
    is [str(e)]. *)
Theorem add_link_fetch_failure
    `{Requests, MVP.HtmlParser, ReaderView.Readability}
    (link : LinkCreate) (db : Db) (e : Exception) :
  fetch_fails (url link) e →
  MVP.add_link link db = (db, Raise (mkHTTPException 500 (str e))) ∧
  ReaderView.add_link link db = (db, Raise (mkHTTPException 500 (str e))).
Proof.
  intros [e' Hget | page e' Hget _ Hstatus];
    unfold MVP.add_link, ReaderView.add_link, try_except, bind, call, raise;
    rewrite Hget; [done |].
  by rewrite Hstatus.
Qed.

Lemma add_link_fetch_failure_witness :
  let not_found := Fixtures.serving (Return Fixtures.not_found) in
  let timeout := Fixtures.serving (Raise Fixtures.read_timeout) in
  let parser := Fixtures.parsed_as Fixtures.untitled_html Fixtures.untitled_soup in
  let link := mkLinkCreate "https://example.com/missing" in
  @ReaderView.add_link not_found Fixtures.extractor link Fixtures.empty_db
  = (Fixtures.empty_db,
     Raise (mkHTTPException 500
       "404 Client Error: Not Found for url: https://example.com/missing")) ∧
  @MVP.add_link timeout parser link Fixtures.empty_db
  = (Fixtures.empty_db,
     Raise (mkHTTPException 500
       "HTTPSConnectionPool(host='example.com', port=443): Read timed out.")).
Proof.
  intros not_found timeout parser link. split.
  - refine (proj2 (@add_link_fetch_failure not_found parser Fixtures.extractor
                     link Fixtures.empty_db
                     (HTTPError "404 Client Error: Not Found for url: https://example.com/missing")
                     _)).
    eapply (@error_status not_found _ Fixtures.not_found);
      [reflexivity | simpl; lia | vm_compute; reflexivity].
  - refine (proj1 (@add_link_fetch_failure timeout parser Fixtures.extractor
                     link Fixtures.empty_db Fixtures.read_timeout _)).
    apply (@transport_failure timeout). reflexivity.
Defined.

(** ** Ingestion: the title *)

Lemma title_of_absent soup :
  MVP.soup_title soup = None → MVP.title_of soup = Some "No title found".
Proof. unfold MVP.title_of. by intros ->. Qed.

Lemma title_of_present soup t :
  MVP.soup_title soup = Some t → MVP.title_of soup = MVP.string_of t.
Proof. unfold MVP.title_of. by intros ->. Qed.

(** C6.  The MVP handler on a page whose title element is present and
    empty, [<html><head><title></title></head><body><p>hello</p></body></html>]:
    [soup.title] is a tag, so the fallback branch is not taken, and
    [.string] of a tag with no child is [None]; the row is stored with a
    null title, not with ["No title found"]. *)
Theorem mvp_empty_title_is_null :
  let network := Fixtures.serving (Return Fixtures.untitled_page) in
  let parser := Fixtures.parsed_as Fixtures.untitled_html Fixtures.untitled_soup in
  let row := mkRow 1 1700000000 "https://example.com/" None None in
  MVP.soup_title Fixtures.untitled_soup = Some (MVP.Tag "title" []) ∧
  MVP.title_of Fixtures.untitled_soup = None ∧
  @MVP.add_link network parser (mkLinkCreate "https://example.com/") Fixtures.empty_db
  = (mkDb [row] 2 1700000000, Return row).
Proof. cbv zeta. split_and!; reflexivity. Qed.

(** ** Ingestion: extraction over the decoded text *)

Section reader_view.
Context `{Requests, ReaderView.Readability}.

Lemma add_link_outcome link db page :
  requests_get (url link) headers = Return page →
  raise_for_status page = Return () →
  ReaderView.add_link link db =
    match ReaderView.Document_title (Response_text page),
          ReaderView.Document_summary (Response_text page) with
    | Return title, Return content =>
        (mkDb (links db ++ [stored link title content db]) (identity db + 1) (now db),
         Return (stored link title content db))
    | Raise e, _ | Return _, Raise e => (db, Raise (mkHTTPException 500 (str e)))
    end.
Proof.
  intros Hget Hstatus.
  unfold ReaderView.add_link, try_except, bind, call, execute, raise, insert.
  rewrite Hget, Hstatus.
  destruct (ReaderView.Document_title _); [| done].
  by destruct (ReaderView.Document_summary _).
Qed.

Lemma add_link_inv link db db' row :
  ReaderView.add_link link db = (db', Return row) →
  ∃ page title content,
    requests_get (url link) headers = Return page ∧
    raise_for_status page = Return () ∧
    ReaderView.Document_title (Response_text page) = Return title ∧
    ReaderView.Document_summary (Response_text page) = Return content ∧
    row = stored link title content db ∧
    db' = mkDb (links db ++ [row]) (identity db + 1) (now db).
Proof.
  unfold ReaderView.add_link, try_except, bind, call, execute, raise, insert.
  destruct (requests_get _ _) as [page |] eqn:Hget; [| done].
  destruct (raise_for_status page) as [[] |] eqn:Hstatus; [| done].
  destruct (ReaderView.Document_title _) as [title |] eqn:Htitle; [| done].
  destruct (ReaderView.Document_summary _) as [content |] eqn:Hcontent; [| done].
  simpl. intros [= <- <-]. by exists page, title, content.
Qed.

Lemma add_link_links_prefix link db :
  links db `prefix_of` links (fst (ReaderView.add_link link db)).
Proof.
  destruct (ReaderView.add_link link db) as [db' [row | e]] eqn:Hadd; simpl.
  - apply add_link_inv in Hadd as (? & ? & ? & _ & _ & _ & _ & _ & ->).
    simpl. by apply prefix_app_r.
  - revert Hadd.
    unfold ReaderView.add_link, try_except, bind, call, execute, raise, insert.
    repeat (match goal with
            | |- context [match ?r with Return _ => _ | Raise _ => _ end] =>
                destruct r
            end; simpl);
      intros [= <- ?]; done.
Qed.

Lemma serve_all_links_prefix db evs :
  links db `prefix_of` links (ReaderView.serve_all db evs).
Proof.
  unfold ReaderView.serve_all.
  revert db. induction evs as [| ev evs IH]; intros db; simpl; [done |].
  etrans; [| apply IH].
  destruct ev; simpl; [apply add_link_links_prefix | done | done].
Qed.

End reader_view.

(** C7.  For every fetched page (the request returned it and its status
    passed), the reader-view handler decodes the body bytes with the
    encoding the page declares, or with the one guessed from the body when
    none is declared, and the extractor is consulted on that text and on
    nothing else: the outcome of the ingestion is the one the extractor's
    answers on the decoded text determine, whether it answers or raises. *)
Theorem extractor_runs_on_decoded_text
    `{Requests, ReaderView.Readability}
    (link : LinkCreate) (db : Db) (page : Response) :
  requests_get (url link) headers = Return page →
  raise_for_status page = Return () →
  let text :=
    decode (default (apparent_encoding (content page)) (encoding page))
           (content page) in
  ReaderView.add_link link db =
    match ReaderView.Document_title text, ReaderView.Document_summary text with
    | Return title, Return fragment =>
        (mkDb (links db ++ [stored link title fragment db]) (identity db + 1) (now db),
         Return (stored link title fragment db))
    | Raise e, _ | Return _, Raise e => (db, Raise (mkHTTPException 500 (str e)))
    end.
Proof.
  intros Hget Hstatus text.
  unfold ReaderView.add_link, try_except, bind, call, execute, raise, insert.
  rewrite Hget, Hstatus.
  change (Response_text page) with text.
  destruct (ReaderView.Document_title text) as [title | e]; [| done].
  by destruct (ReaderView.Document_summary text) as [fragment | e].
Qed.

Lemma extractor_runs_on_decoded_text_witness :
  let network := Fixtures.serving (Return Fixtures.article_page) in
  let link := mkLinkCreate "https://example.com/post" in
  let row := mkRow 1 1700000000 "https://example.com/post"
                   (Some "Post") (Some Fixtures.article_fragment) in
  @ReaderView.add_link network Fixtures.extractor link Fixtures.empty_db
  = (mkDb [row] 2 1700000000, Return row).
Proof.
  intros network link row.
  apply (@extractor_runs_on_decoded_text network Fixtures.extractor
           link Fixtures.empty_db Fixtures.article_page);
    reflexivity.
Defined.

(** Two fetched pages with the same decoded text are ingested alike,
    whatever their bytes and encodings. *)
Lemma add_link_depends_on_text_only
    (net1 net2 : Requests) `{ReaderView.Readability}
    (link : LinkCreate) (db : Db) (page1 page2 : Response) :
  @requests_get net1 (url link) headers = Return page1 →
  @requests_get net2 (url link) headers = Return page2 →
  raise_for_status page1 = Return () →
  raise_for_status page2 = Return () →
  @Response_text net1 page1 = @Response_text net2 page2 →
  @ReaderView.add_link net1 _ link db = @ReaderView.add_link net2 _ link db.
Proof.
  intros Hget1 Hget2 Hst1 Hst2 Htext.
  rewrite (@add_link_outcome net1 _ link db page1 Hget1 Hst1).
  rewrite (@add_link_outcome net2 _ link db page2 Hget2 Hst2).
  by rewrite Htext.
Qed.

(** ** Raw storage, sanitised reading *)

Lemma render_article `{ReadPage.DOMPurify} st heading href html :
  ReadPage.render st = ReadPage.ArticleView heading href html →
  ∃ l, ReadPage.link st = Some l ∧ html = ReadPage.sanitize (ReadPage.content l).
Proof.
  unfold ReadPage.render.
  destruct (ReadPage.isLoading st); [done |].
  destruct (ReadPage.truthy _); [done |].
  destruct (ReadPage.link st) as [l |]; [| done].
  intros [= _ _ <-]. by exists l.
Qed.

(** C3.  For every record the reader-view handler ingests: the stored
    content is the extractor's fragment as it came (so whatever the
    fragment contains, an [onerror] attribute for one, is in the stored
    value), appended to the table by the ingestion; no later request
    served by the backend alters or removes a stored row; and on the reader
    page, every article view carries as its [__html] the sanitizer's output
    on the content of the link held in the state, in particular after
    loading a link with the stored content, while the state keeps the link
    as loaded. *)
Theorem content_stored_raw_sanitized_on_read
    `{Requests, ReaderView.Readability, ReadPage.DOMPurify}
    (link : LinkCreate) (db db' : Db) (row : Row) :
  ReaderView.add_link link db = (db', Return row) →
  ∃ page raw,
    requests_get (url link) headers = Return page ∧
    ReaderView.Document_summary (Response_text page) = Return raw ∧
    row_content row = Some raw ∧
    links db' = (links db ++ [row])%list ∧
    (∀ evs, links db' `prefix_of` links (ReaderView.serve_all db' evs)) ∧
    (∀ st heading href html,
       ReadPage.render st = ReadPage.ArticleView heading href html →
       ∃ l, ReadPage.link st = Some l ∧
            html = ReadPage.sanitize (ReadPage.content l)) ∧
    (∀ l, ReadPage.content l = raw →
       let st := ReadPage.fetchLink (ReadPage.Resolved l) ReadPage.initial in
       ReadPage.link st = Some l ∧
       ReadPage.render st
       = ReadPage.ArticleView (ReadPage.title l) (ReadPage.url l)
                              (ReadPage.sanitize raw)).
Proof.
  intros Hadd.
  apply add_link_inv in Hadd
    as (page & title & raw & Hget & _ & _ & Hsummary & -> & ->).
  exists page, raw. split_and!; try done.
  - intros evs. apply serve_all_links_prefix.
  - intros st heading href html. apply render_article.
  - intros l <-. done.
Qed.

Lemma content_stored_raw_sanitized_on_read_witness :
  let network := Fixtures.serving (Return Fixtures.article_page) in
  let link := mkLinkCreate "https://example.com/post" in
  let row := mkRow 1 1700000000 "https://example.com/post"
                   (Some "Post") (Some Fixtures.article_fragment) in
  let shown := ReadPage.mkLink 1 "https://example.com/post" "Post"
                               Fixtures.article_fragment "2023-11-14T22:13:20" in
  row_content row = Some "<div><p>Hello</p><img src=x onerror='alert(1)'></div>" ∧
  @ReadPage.render Fixtures.escaping
    (ReadPage.fetchLink (ReadPage.Resolved shown) ReadPage.initial)
  = ReadPage.ArticleView "Post" "https://example.com/post"
      "&lt;div>&lt;p>Hello&lt;/p>&lt;img src=x onerror='alert(1)'>&lt;/div>".
Proof.
  intros network link row shown.
  destruct (@content_stored_raw_sanitized_on_read
              network Fixtures.extractor Fixtures.escaping
              link Fixtures.empty_db (mkDb [row] 2 1700000000) row eq_refl)
    as (page & raw & Hget & Hsummary & Hcontent & _ & _ & _ & Hread).
  split; [reflexivity |].
  injection Hget as <-. injection Hsummary as <-.
  exact (proj2 (Hread shown eq_refl)).
Defined.

(** ** The category of an ingested record *)

(** C4.  Whatever the classification attempt comes back with (a label of
    the closed set, a label outside it, an unreachable backend, a timeout),
    the category the Categorizer resolves to is one of the eight labels: a
    label of the set is kept, everything else becomes [Other]. *)
Theorem classify_in_closed_set
    (backend : string → string → Categorizer.BackendOutcome)
    (title content : string) :
  Categorizer.classify backend title content ∈ Categorizer.CATEGORY_SET ∧
  (∀ label, backend title content = Categorizer.Label label →
            label ∈ Categorizer.CATEGORY_SET →
            Categorizer.classify backend title content = label) ∧
  (∀ label, backend title content = Categorizer.Label label →
            label ∉ Categorizer.CATEGORY_SET →
            Categorizer.classify backend title content = "Other") ∧
  (backend title content = Categorizer.Unreachable →
   Categorizer.classify backend title content = "Other") ∧
  (backend title content = Categorizer.TimedOut →
   Categorizer.classify backend title content = "Other").
Proof.
  unfold Categorizer.classify.
  assert (Hother : "Other" ∈ Categorizer.CATEGORY_SET).
  { apply (bool_decide_unpack _). by vm_compute. }
  split_and!.
  - destruct (backend title content) as [label | |]; simpl; [| done | done].
    by case_bool_decide.
  - intros label -> Hin. simpl. by rewrite bool_decide_eq_true_2.
  - intros label -> Hout. simpl. by rewrite bool_decide_eq_false_2.
  - by intros ->.
  - by intros ->.
Qed.

(** The filter buttons of the list page are "All" followed by the closed
    set. *)
Lemma CATEGORIES_closed_set :
  Home.CATEGORIES = "All" :: Categorizer.CATEGORY_SET.
Proof. reflexivity. Qed.

(** * Further properties of the handlers and pages *)

(** ** Ingestion is all or nothing *)

Lemma mvp_add_link_cases `{Requests, MVP.HtmlParser} link db :
  (∃ title,
     let row := mkRow (identity db) (now db) (url link) title None in
     MVP.add_link link db
     = (mkDb (links db ++ [row]) (identity db + 1) (now db), Return row)) ∨
  (∃ e, MVP.add_link link db = (db, Raise (mkHTTPException 500 (str e)))).
Proof.
  unfold MVP.add_link, try_except, bind, call, execute, raise, insert.
  destruct (requests_get _ _) as [page | e]; [| right; by exists e].
  destruct (raise_for_status page) as [[] | e]; [| right; by exists e].
  left. by eexists.
Qed.

Lemma reader_add_link_cases `{Requests, ReaderView.Readability} link db :
  (∃ title fragment,
     let row := stored link title fragment db in
     ReaderView.add_link link db
     = (mkDb (links db ++ [row]) (identity db + 1) (now db), Return row)) ∨
  (∃ e, ReaderView.add_link link db = (db, Raise (mkHTTPException 500 (str e)))).
Proof.
  unfold ReaderView.add_link, try_except, bind, call, execute, raise, insert.
  destruct (requests_get _ _) as [page | e]; [| right; by exists e].
  destruct (raise_for_status page) as [[] | e]; [| right; by exists e].
  destruct (ReaderView.Document_title _) as [title | e]; [| right; by exists e].
  destruct (ReaderView.Document_summary _) as [fragment | e];
    [| right; by exists e].
  left. by exists title, fragment.
Qed.

(** X1.  Each version of the ingestion handler either returns the row it
    inserted, and then the table has grown by exactly that row, which
    carries the next identity value, the database time and the submitted
    URL, or it raises an [HTTPException] with status 500, and then the
    database is exactly as before.  The MVP stores no content. *)
Theorem add_link_all_or_nothing
    `{Requests, MVP.HtmlParser, ReaderView.Readability}
    (link : LinkCreate) (db : Db) :
  match MVP.add_link link db with
  | (db', Return row) =>
      links db' = (links db ++ [row])%list ∧ identity db' = identity db + 1 ∧
      now db' = now db ∧ row_id row = identity db ∧
      row_created_at row = now db ∧ row_url row = url link ∧
      row_content row = None
  | (db', Raise err) => db' = db ∧ http_status err = 500
  end ∧
  match ReaderView.add_link link db with
  | (db', Return row) =>
      links db' = (links db ++ [row])%list ∧ identity db' = identity db + 1 ∧
      now db' = now db ∧ row_id row = identity db ∧
      row_created_at row = now db ∧ row_url row = url link ∧
      is_Some (row_title row) ∧ is_Some (row_content row)
  | (db', Raise err) => db' = db ∧ http_status err = 500
  end.
Proof.
  split.
  - destruct (mvp_add_link_cases link db) as [[title ->] | [e ->]]; by simpl.
  - destruct (reader_add_link_cases link db) as [(title & fragment & ->) | [e ->]];
      simpl; [| done].
    split_and!; by eauto.
Qed.

(** ** Identity values *)

Lemma ids_fresh_insert db row :
  ids_fresh db → row_id row = identity db →
  ids_fresh (mkDb (links db ++ [row]) (identity db + 1) (now db)).
Proof.
  intros [Hbelow Hnodup] Hid. split; simpl.
  - apply Forall_app. split.
    + eapply Forall_impl; [exact Hbelow |]. simpl. intros; lia.
    + constructor; [lia | constructor].
  - rewrite fmap_app. apply NoDup_app. split_and!; [done | | apply NoDup_singleton].
    intros i Hi. simpl. rewrite list_elem_of_singleton. intros ->.
    apply list_elem_of_fmap in Hi as (r & Hr & Hin).
    rewrite Forall_forall in Hbelow. specialize (Hbelow r Hin). lia.
Qed.

Lemma add_link_ids_fresh `{Requests, ReaderView.Readability} link db :
  ids_fresh db →
  ids_fresh (fst (ReaderView.add_link link db)) ∧
  identity db ≤ identity (fst (ReaderView.add_link link db)).
Proof.
  intros Hfresh.
  destruct (reader_add_link_cases link db) as [(title & fragment & ->) | [e ->]];
    simpl; [| split; [done | lia]].
  split; [by apply ids_fresh_insert | lia].
Qed.

(** X2.  Starting from a table whose ids are distinct and below the next
    identity value, the ids stay distinct and below the next identity value
    through any sequence of requests the backend serves and any passing of
    time, and the identity counter never goes back. *)
Theorem served_ids_stay_distinct
    `{Requests, ReaderView.Readability} (db : Db) (evs : list ReaderView.Event) :
  ids_fresh db →
  ids_fresh (ReaderView.serve_all db evs) ∧
  identity db ≤ identity (ReaderView.serve_all db evs).
Proof.
  unfold ReaderView.serve_all.
  revert db. induction evs as [| ev evs IH]; intros db Hfresh; simpl.
  - split; [done | lia].
  - assert (ids_fresh (ReaderView.serve db ev) ∧
            identity db ≤ identity (ReaderView.serve db ev)) as [Hstep Hle].
    { destruct ev as [body | | t]; simpl.
      - by apply add_link_ids_fresh.
      - split; [done | lia].
      - split; [exact Hfresh | lia]. }
    destruct (IH _ Hstep) as [Hall Hle']. split; [done | lia].
Qed.

Lemma served_ids_stay_distinct_witness :
  let network := Fixtures.serving (Return Fixtures.article_page) in
  let post := ReaderView.PostLinks (mkLinkCreate "https://example.com/post") in
  NoDup (row_id <$> links (@ReaderView.serve_all network Fixtures.extractor
                             Fixtures.one_row_db
                             [post; ReaderView.GetLinks; ReaderView.ClockAdvance 1700000100; post])).
Proof.
  intros network post.
  refine (proj2 (proj1 (@served_ids_stay_distinct network Fixtures.extractor
                          Fixtures.one_row_db _ _))).
  split; [repeat constructor | simpl].
  apply NoDup_singleton.
Defined.

(** X3.  The handler does not deduplicate: two ingestions of the same link
    in a row that both succeed leave two rows at the end of the table, the
    second with the id that follows the first's, both with the submitted
    URL. *)
Theorem add_link_twice_two_rows
    `{Requests, ReaderView.Readability}
    (link : LinkCreate) (db db1 db2 : Db) (r1 r2 : Row) :
  ReaderView.add_link link db = (db1, Return r1) →
  ReaderView.add_link link db1 = (db2, Return r2) →
  links db2 = (links db ++ [r1; r2])%list ∧
  row_id r2 = row_id r1 + 1 ∧
  row_url r1 = url link ∧ row_url r2 = url link.
Proof.
  intros H1 H2.
  apply add_link_inv in H1 as (? & ? & ? & _ & _ & _ & _ & -> & ->).
  apply add_link_inv in H2 as (? & ? & ? & _ & _ & _ & _ & -> & ->).
  simpl. by rewrite <- (assoc_L (++)).
Qed.

Lemma add_link_twice_two_rows_witness :
  let network := Fixtures.serving (Return Fixtures.article_page) in
  let link := mkLinkCreate "https://example.com/post" in
  let r1 := mkRow 1 1700000000 "https://example.com/post"
                  (Some "Post") (Some Fixtures.article_fragment) in
  let r2 := mkRow 2 1700000000 "https://example.com/post"
                  (Some "Post") (Some Fixtures.article_fragment) in
  links (mkDb [r1; r2] 3 1700000000) = [r1; r2] ∧ row_id r2 = row_id r1 + 1.
Proof.
  intros network link r1 r2.
  destruct (@add_link_twice_two_rows network Fixtures.extractor link
              Fixtures.empty_db (mkDb [r1] 2 1700000000)
              (mkDb [r1; r2] 3 1700000000) r1 r2 eq_refl eq_refl)
    as (Hlinks & Hid & _ & _).
  split; [exact Hlinks | exact Hid].
Defined.

(** ** A new link in the listing *)




(** ** The title of a page without a title tag *)

(** X5.  For a fetched page in which the parser finds no title tag, the
    MVP handler succeeds and stores the row with the title
    ["No title found"] and no content. *)
Theorem mvp_no_title_tag_sentinel
    `{Requests, MVP.HtmlParser}
    (link : LinkCreate) (db : Db) (page : Response) :
  requests_get (url link) headers = Return page →
  raise_for_status page = Return () →
  MVP.soup_title (MVP.BeautifulSoup (content page) "html.parser") = None →
  let row := mkRow (identity db) (now db) (url link) (Some "No title found") None in
  MVP.add_link link db
  = (mkDb (links db ++ [row]) (identity db + 1) (now db), Return row).
Proof.
  intros Hget Hstatus Htitle row.
  unfold MVP.add_link, try_except, bind, call, execute, raise, insert.
  rewrite Hget, Hstatus. unfold MVP.title_of. by rewrite Htitle.
Qed.

Lemma mvp_no_title_tag_sentinel_witness :
  let network := Fixtures.serving (Return Fixtures.bare_page) in
  let parser := Fixtures.parsed_as Fixtures.bare_html Fixtures.bare_soup in
  let row := mkRow 1 1700000000 "https://example.com/bare"
                   (Some "No title found") None in
  @MVP.add_link network parser (mkLinkCreate "https://example.com/bare")
                Fixtures.empty_db
  = (mkDb [row] 2 1700000000, Return row).
Proof.
  intros network parser row.
  apply (@mvp_no_title_tag_sentinel network parser
           (mkLinkCreate "https://example.com/bare") Fixtures.empty_db
           Fixtures.bare_page);
    reflexivity.
Defined.

(** ** The reader page through its loads *)

Lemma fetchLink_isLoading r st : ReadPage.isLoading (ReadPage.fetchLink r st) = false.
Proof. by destruct r. Qed.

Lemma fetchLink_error_kept r st msg :
  ReadPage.error st = Some "Failed to load the article. Please try again later." →
  msg = "Failed to load the article. Please try again later." →
  ReadPage.error (ReadPage.fetchLink r st) = Some msg.
Proof. intros Herr ->. by destruct r. Qed.

(** X6.  The reader page never clears its error: once a load has failed,
    the page shows the failure notice after that load and after any number
    of further loads, whether they succeed or fail, and whatever link the
    state holds. *)
Theorem failed_load_notice_stays
    `{ReadPage.DOMPurify} (st : ReadPage.State)
    (later : list ReadPage.AxiosResult) :
  ReadPage.render
    (foldl (λ st r, ReadPage.fetchLink r st)
           (ReadPage.fetchLink ReadPage.Rejected st) later)
  = ReadPage.ErrorView "Failed to load the article. Please try again later.".
Proof.
  set (msg := "Failed to load the article. Please try again later.").
  assert (Hinv : ∀ s,
            ReadPage.isLoading s = false → ReadPage.error s = Some msg →
            ReadPage.isLoading (foldl (λ st r, ReadPage.fetchLink r st) s later) = false ∧
            ReadPage.error (foldl (λ st r, ReadPage.fetchLink r st) s later) = Some msg).
  { induction later as [| r later IH]; intros s Hload Herr; simpl; [done |].
    apply IH; [apply fetchLink_isLoading | by apply fetchLink_error_kept]. }
  destruct (Hinv (ReadPage.fetchLink ReadPage.Rejected st)) as [Hload Herr];
    [done | done |].
  unfold ReadPage.render. by rewrite Hload, Herr.
Qed.

(** X7.  What the reader page shows once its effect has run from the
    initial state: without an id (absent or empty) nothing is requested and
    the loading notice stays; with an id the request goes to
    [http://localhost:8000/links/<id>], and the page shows the article with
    the sanitised content when it resolves and the failure notice when it
    is rejected. *)
Theorem reader_page_after_mount
    `{ReadPage.DOMPurify} (axios_get : string → ReadPage.AxiosResult)
    (id : option string) :
  ReadPage.render (ReadPage.useEffect axios_get id ReadPage.initial)
  = match id with
    | None => ReadPage.LoadingView
    | Some i =>
        if bool_decide (i = EmptyString) then ReadPage.LoadingView
        else match axios_get ("http://localhost:8000/links/" +:+ i) with
             | ReadPage.Resolved l =>
                 ReadPage.ArticleView (ReadPage.title l) (ReadPage.url l)
                   (ReadPage.sanitize (ReadPage.content l))
             | ReadPage.Rejected =>
                 ReadPage.ErrorView
                   "Failed to load the article. Please try again later."
             end
    end ∧
  (ReadPage.truthy id = false →
   ReadPage.useEffect axios_get id ReadPage.initial = ReadPage.initial).
Proof.
  split.
  - destruct id as [i |]; [| done].
    unfold ReadPage.useEffect. simpl.
    case_bool_decide; simpl; [done |].
    change (ReadPage.API_URL +:+ "/links/" +:+ i)
      with ("http://localhost:8000/links/" +:+ i).
    by destruct (axios_get _).
  - unfold ReadPage.useEffect. by intros ->.
Qed.

(** ** The list page: submitting a link *)

Lemma submit_empty axios_post st :
  Home.newLinkUrl st = EmptyString →
  Home.submit axios_post st = (st, [Home.ToastWarning "Please enter a URL."]).
Proof.
  intros Hempty. unfold Home.submit, Home.handleSubmit.
  by rewrite bool_decide_eq_true_2.
Qed.

Lemma submit_sent axios_post st :
  Home.newLinkUrl st ≠ EmptyString →
  Home.submit axios_post st
  = let '(st', toasts) :=
      Home.settle (Home.mkPending (Home.newLinkUrl st) (Home.links st))
                  (axios_post (Home.newLinkUrl st))
                  (Home.setIsLoading true st) in
    (st', Home.ToastLoading "Saving and categorizing link..." :: toasts).
Proof.
  intros Hurl. unfold Home.submit, Home.handleSubmit.
  rewrite bool_decide_eq_false_2 by done. simpl.
  by destruct (Home.settle _ _ _).
Qed.

(** X8.  A submission run to its end on an idle form leaves the form
    enabled again on every path (empty field, created, rejected), never
    changes the active filter, and keeps the links it found as the tail of
    the list, adding at most one in front. *)
Theorem submit_reenables_and_keeps_links
    (axios_post : string → Home.PostResult) (st : Home.State) :
  Home.isLoading st = false →
  let st' := fst (Home.submit axios_post st) in
  Home.isLoading st' = false ∧
  Home.activeFilter st' = Home.activeFilter st ∧
  Home.links st `suffix_of` Home.links st' ∧
  (length (Home.links st') ≤ S (length (Home.links st)))%nat.
Proof.
  intros Hidle.
  destruct (decide (Home.newLinkUrl st = EmptyString)) as [Hempty | Hurl].
  - rewrite submit_empty by done. simpl. split_and!; try done; lia.
  - rewrite submit_sent by done.
    destruct (axios_post _) as [data | d]; simpl.
    + split_and!; try done; try (by apply suffix_cons_r); lia.
    + split_and!; try done; lia.
Qed.

Lemma submit_reenables_and_keeps_links_witness :
  Home.links (fst (Home.submit (λ _, Home.PostResolved Fixtures.created)
                               Fixtures.typed_in))
  = Fixtures.created :: Fixtures.sample_links ∧
  Fixtures.sample_links
    `suffix_of` Home.links (fst (Home.submit (λ _, Home.PostRejected None)
                                             Fixtures.typed_in)).
Proof.
  split; [reflexivity |].
  exact (proj1 (proj2 (proj2
           (submit_reenables_and_keeps_links (λ _, Home.PostRejected None)
              Fixtures.typed_in eq_refl)))).
Defined.

(** X9.  After a submission that created a link, the list shown under the
    active filter is the list shown before with the created link put in
    front when the filter is "All" or is the created link's category, and
    is the list shown before otherwise; the URL field is emptied. *)
Theorem created_link_shown_first
    (axios_post : string → Home.PostResult) (st : Home.State)
    (data : Home.Link) :
  Home.newLinkUrl st ≠ EmptyString →
  axios_post (Home.newLinkUrl st) = Home.PostResolved data →
  let st' := fst (Home.submit axios_post st) in
  Home.filteredLinks (Home.links st') (Home.activeFilter st')
  = (if bool_decide (Home.activeFilter st = "All" ∨
                     Home.category data = Some (Home.activeFilter st))
     then data :: Home.filteredLinks (Home.links st) (Home.activeFilter st)
     else Home.filteredLinks (Home.links st) (Home.activeFilter st)) ∧
  Home.newLinkUrl st' = EmptyString.
Proof.
  intros Hurl Hpost.
  rewrite submit_sent by done. rewrite Hpost. simpl.
  split; [| done].
  unfold Home.filteredLinks.
  destruct (decide (Home.activeFilter st = "All")) as [Hall | Hlabel].
  - rewrite !bool_decide_eq_true_2; [done | by left | done].
  - rewrite (bool_decide_eq_false_2 (Home.activeFilter st = "All")) by done.
    rewrite filter_cons.
    destruct (decide (Home.category data = Some (Home.activeFilter st))).
    + by rewrite bool_decide_eq_true_2 by by right.
    + rewrite bool_decide_eq_false_2; [done |]. intros [? | ?]; done.
Qed.

Lemma created_link_shown_first_witness :
  Home.filteredLinks
    (Home.links (fst (Home.submit (λ _, Home.PostResolved Fixtures.created)
                                  Fixtures.typed_in)))
    "Science"
  = [Fixtures.created;
     Home.mkLink 3 "https://c.example" "C" "2024-03-01" (Some "Science");
     Home.mkLink 1 "https://a.example" "A" "2024-01-01" (Some "Science")].
Proof.
  exact (proj1 (created_link_shown_first (λ _, Home.PostResolved Fixtures.created)
                  Fixtures.typed_in Fixtures.created
                  ltac:(discriminate) eq_refl)).
Defined.

(** X10.  The handler closes over the list it was called with: when the
    initial load of the links resolves while a submission is under way, the
    submission, once it creates its link, replaces the loaded list by the
    created link followed by the list as it was when the form was
    submitted. *)
Theorem late_creation_overwrites_loaded_links
    (st st1 : Home.State) (toasts : list Home.Toast) (p : Home.Pending)
    (loaded : list Home.Link) (data : Home.Link) :
  Home.handleSubmit st = (st1, toasts, Some p) →
  let st2 := fst (Home.fetchLinks (Home.GetResolved loaded) st1) in
  Home.links st2 = loaded ∧
  Home.links (fst (Home.settle p (Home.PostResolved data) st2))
  = data :: Home.links st.
Proof.
  unfold Home.handleSubmit. case_bool_decide; [done |].
  by intros [= <- <- <-].
Qed.

Lemma late_creation_overwrites_loaded_links_witness :
  let st := Home.mkState [] "https://example.com/post" false "All" in
  let p := Home.mkPending "https://example.com/post" [] in
  Home.links
    (fst (Home.settle p (Home.PostResolved Fixtures.created)
            (fst (Home.fetchLinks (Home.GetResolved Fixtures.sample_links)
                    (Home.setIsLoading true st)))))
  = [Fixtures.created].
Proof.
  intros st p.
  exact (proj2 (late_creation_overwrites_loaded_links st
                  (Home.setIsLoading true st)
                  [Home.ToastLoading "Saving and categorizing link..."] p
                  Fixtures.sample_links Fixtures.created eq_refl)).
Defined.

(** ** From a failed fetch to the notice on the list page *)

Lemma reader_add_link_fetch_fails `{Requests, ReaderView.Readability} link db e :
  fetch_fails (url link) e →
  ReaderView.add_link link db = (db, Raise (mkHTTPException 500 (str e))).
Proof.
  intros [e' Hget | page e' Hget _ Hstatus];
    unfold ReaderView.add_link, try_except, bind, call, raise;
    rewrite Hget; [done |].
  by rewrite Hstatus.
Qed.

(** X11.  When the list page submits a URL whose fetch fails in the
    backend with a cause [e] of non-empty message, the backend stores
    nothing, and the page, given the backend's error response, ends with
    the form enabled, its list, URL field and filter untouched, and the
    notices "Saving and categorizing link..." and then "Error: " followed
    by [str(e)]. *)
Theorem fetch_failure_reaches_the_user
    `{Requests, ReaderView.Readability}
    (json : Row → Home.Link) (st : Home.State) (db : Db) (e : Exception) :
  Home.newLinkUrl st ≠ EmptyString →
  str e ≠ EmptyString →
  fetch_fails (Home.newLinkUrl st) e →
  fst (ReaderView.add_link (mkLinkCreate (Home.newLinkUrl st)) db) = db ∧
  Home.submit
    (λ u, post_response json (snd (ReaderView.add_link (mkLinkCreate u) db))) st
  = (Home.setIsLoading false st,
     [Home.ToastLoading "Saving and categorizing link...";
      Home.ToastError ("Error: " +:+ str e)]).
Proof.
  intros Hurl Hmsg Hfails.
  pose proof (reader_add_link_fetch_fails
                (mkLinkCreate (Home.newLinkUrl st)) db e Hfails) as Hadd.
  split; [by rewrite Hadd |].
  rewrite submit_sent by done. rewrite Hadd. simpl.
  unfold Home.detail_or_default.
  by rewrite bool_decide_eq_false_2.
Qed.

Lemma fetch_failure_reaches_the_user_witness :
  let network := Fixtures.serving (Return Fixtures.not_found) in
  let st := Home.mkState Fixtures.sample_links "https://example.com/missing"
                         false "All" in
  Home.submit
    (λ u, post_response (λ _, Fixtures.created)
            (snd (@ReaderView.add_link network Fixtures.extractor
                    (mkLinkCreate u) Fixtures.empty_db))) st
  = (st,
     [Home.ToastLoading "Saving and categorizing link...";
      Home.ToastError
        "Error: 404 Client Error: Not Found for url: https://example.com/missing"]).
Proof.
  intros network st.
  refine (proj2 (@fetch_failure_reaches_the_user network Fixtures.extractor
                   (λ _, Fixtures.created) st Fixtures.empty_db
                   (HTTPError "404 Client Error: Not Found for url: https://example.com/missing")
                   _ _ _)).
  - discriminate.
  - discriminate.
  - eapply (@error_status network _ Fixtures.not_found);
      [reflexivity | simpl; lia | vm_compute; reflexivity].
Defined.

(** ** The list page: filter buttons and cards *)

(** X12.  Clicking any of the filter buttons leaves exactly one button
    with the [default] variant, the clicked one, leaves the links as they
    are, and makes the shown list the list filtered by the clicked
    button's category. *)
Theorem clicked_filter_is_the_active_one
    (st : Home.State) (b : Home.FilterButton) :
  b ∈ Home.buttons st →
  let st' := Home.onClick b st in
  filter (λ b', Home.variant b' = "default") (Home.buttons st')
  = [Home.mkFilterButton (Home.button_category b) "default"] ∧
  Home.button_category b ∈ Home.CATEGORIES ∧
  Home.links st' = Home.links st ∧
  Home.filteredLinks (Home.links st') (Home.activeFilter st')
  = Home.filteredLinks (Home.links st) (Home.button_category b).
Proof.
  intros Hb. unfold Home.buttons in Hb.
  apply list_elem_of_fmap in Hb as (category & -> & Hcat).
  simpl. split_and!; [| done | done | done].
  unfold Home.buttons, Home.CATEGORIES in *. simpl.
  repeat (apply elem_of_cons in Hcat as [-> | Hcat]; [reflexivity |]).
  by apply elem_of_nil in Hcat.
Qed.

Lemma clicked_filter_is_the_active_one_witness :
  filter (λ b', Home.variant b' = "default")
         (Home.buttons (Home.onClick (Home.mkFilterButton "History" "outline")
                                     Fixtures.typed_in))
  = [Home.mkFilterButton "History" "default"].
Proof.
  refine (proj1 (clicked_filter_is_the_active_one Fixtures.typed_in
                   (Home.mkFilterButton "History" "outline") _)).
  apply list_elem_of_fmap. exists "History". split; [reflexivity |].
  apply (bool_decide_unpack _). by vm_compute.
Defined.

(** X13.  Under a category filter (not "All", not the empty string) the
    list page shows either cards, one for each link of that category in
    the order of the list, every one with a badge carrying the category,
    or, when no link has the category, the notice naming the category. *)
Theorem listing_under_a_category `{Home.DateFormat} (st : Home.State) :
  Home.activeFilter st ≠ "All" →
  Home.activeFilter st ≠ EmptyString →
  match Home.listing st with
  | Home.Cards cards =>
      cards ≠ [] ∧
      Forall (λ c, Home.badge c = Some (Home.activeFilter st)) cards ∧
      Home.heading <$> cards
      = Home.title <$> filter (λ l, Home.category l = Some (Home.activeFilter st))
                              (Home.links st)
  | Home.Notice message =>
      Forall (λ l, Home.category l ≠ Some (Home.activeFilter st)) (Home.links st) ∧
      message = "No links found for the category " +:+ Home.quote +:+
                Home.activeFilter st +:+ Home.quote +:+ "."
  end.
Proof.
  intros Hall Hlabel. unfold Home.listing.
  rewrite filteredLinks_label by done.
  set (P := λ l, Home.category l = Some (Home.activeFilter st)).
  destruct (filter P (Home.links st)) as [| l shown] eqn:Hshown; simpl.
  - split; [| done].
    apply Forall_forall. intros l Hl Hcat.
    assert (l ∈ filter P (Home.links st)) as Hin by by apply list_elem_of_filter.
    rewrite Hshown in Hin. by apply elem_of_nil in Hin.
  - assert (Forall P (l :: shown)) as Hforall.
    { rewrite <- Hshown. apply Forall_forall. intros x Hx.
      by apply list_elem_of_filter in Hx as [? _]. }
    split_and!; [done | |].
    + change (Forall (λ c, Home.badge c = Some (Home.activeFilter st))
                     (Home.card <$> l :: shown)).
      apply Forall_fmap. eapply Forall_impl; [exact Hforall |].
      intros x Hx. unfold P in Hx. simpl. rewrite Hx.
      by rewrite bool_decide_eq_false_2.
    + change (Home.heading <$> (Home.card <$> l :: shown) = Home.title <$> l :: shown).
      rewrite <- list_fmap_compose. done.
Qed.

Lemma listing_under_a_category_witness :
  match @Home.listing Fixtures.plain_dates Fixtures.typed_in with
  | Home.Cards cards =>
      cards ≠ [] ∧
      Forall (λ c, Home.badge c = Some "Science") cards ∧
      Home.heading <$> cards = ["C"; "A"]
  | Home.Notice message =>
      Forall (λ l, Home.category l ≠ Some "Science") Fixtures.sample_links ∧
      message = "No links found for the category " +:+ Home.quote +:+
                "Science" +:+ Home.quote +:+ "."
  end.
Proof.
  exact (@listing_under_a_category Fixtures.plain_dates Fixtures.typed_in
           ltac:(discriminate) ltac:(discriminate)).
Defined.

(** ** What the backend never does *)

(** X14.  The backend has no request that removes or rewrites a row: a row
    that the listing returns is still returned, unchanged, after any
    sequence of requests served and any passing of time. *)
Theorem listed_links_stay_listed
    `{Requests, ReaderView.Readability}
    (db : Db) (evs : list ReaderView.Event) (r : Row) :
  r ∈ snd (get_links db) →
  r ∈ snd (get_links (ReaderView.serve_all db evs)).
Proof.
  simpl. rewrite !order_created_at_desc_Permutation.
  intros Hin.
  destruct (serve_all_links_prefix db evs) as [added ->].
  apply elem_of_app. by left.
Qed.

Lemma listed_links_stay_listed_witness :
  let network := Fixtures.serving (Return Fixtures.article_page) in
  let old := mkRow 1 1600000000 "https://old.example" (Some "Old") (Some "<p>old</p>") in
  old ∈ snd (get_links
               (@ReaderView.serve_all network Fixtures.extractor Fixtures.one_row_db
                  [ReaderView.PostLinks (mkLinkCreate "https://example.com/post");
                   ReaderView.ClockAdvance 1700000100;
                   ReaderView.PostLinks (mkLinkCreate "https://example.com/post")])).
Proof.
  intros network old.
  apply (@listed_links_stay_listed network Fixtures.extractor Fixtures.one_row_db).
  simpl. apply list_elem_of_here.
Defined.
